(** * Shallow embedding of the scroll tracker of [ElegantNavigation]
  (src/Footer.tsx) and of the preloader gate of [Index] (src/Index.tsx).

  Browser geometry is read as exact rationals: [getBoundingClientRect]
  and [window.scrollY] return numbers that the code only compares. *)

From Stdlib Require Import String List QArith Bool.
Import ListNotations.
Open Scope string_scope.

(** ** The DOM capabilities the components use *)
Module Dom.

(** The two fields of a [DOMRect] that [handleScroll] reads. *)
Record DOMRect := mkRect { top : Q; bottom : Q }.

Record Element := mkElement { el_id : string; rect : DOMRect }.

(** A snapshot of [document.getElementById]: [None] is [null]. *)
Definition Document := string -> option Element.

Definition getElementById (document : Document) (id : string)
  : option Element := document id.

Definition getBoundingClientRect (e : Element) : DOMRect := rect e.

Inductive ScrollBehavior := Auto | Smooth.
Inductive ScrollLogicalPosition := Start | Center | End_ | Nearest.

(** [ScrollIntoViewOptions]; an omitted [block] is ["start"] and an
    omitted [inline] is ["nearest"] by the DOM standard. *)
Record ScrollIntoViewOptions := mkOpts {
  behavior : ScrollBehavior;
  block : ScrollLogicalPosition;
  inline : ScrollLogicalPosition }.

Definition opts_of_behavior (b : ScrollBehavior) : ScrollIntoViewOptions :=
  {| behavior := b; block := Start; inline := Nearest |}.

(** Calls made on the outside world. *)
Inductive Effect :=
| ScrollIntoView (target : Element) (o : ScrollIntoViewOptions).

End Dom.

Import Dom.

(** JavaScript truthiness of a [string | undefined]. *)
Definition truthy (v : option string) : bool :=
match v with
| Some s => negb (String.eqb s "")
| None => false
end.

(** ** [Footer] (src/Footer.tsx, lines 3-124) *)
Module Footer.

(** [scrollToSection], lines 6-11. *)
Definition scrollToSection (document : Document) (sectionId : string)
  : list Effect :=
  match getElementById document sectionId with
  | Some element => [ScrollIntoView element (opts_of_behavior Smooth)]
  | None => []
  end.

End Footer.

(** ** [ElegantNavigation] (src/Footer.tsx, lines 132-242) *)
Module ElegantNavigation.

Record NavState := mkNav { isScrolled : bool; activeSection : string }.

(** [useState(false)] and [useState("")], lines 133-134. *)
Definition init : NavState := {| isScrolled := false; activeSection := "" |}.

Definition sections : list string :=
  ["hero"; "services"; "work"; "about"; "contact"].

(** The predicate passed to [sections.find], lines 142-149. *)
Definition section_matches (document : Document) (section : string) : bool :=
  match getElementById document section with
  | Some element =>
      let r := getBoundingClientRect element in
      Qle_bool (top r) 100 && Qle_bool 100 (bottom r)
  | None => false
  end.

(** [handleScroll], lines 137-154: [setIsScrolled(window.scrollY > 50)],
    then [setActiveSection(currentSection)] when it is truthy. *)
Definition handleScroll (document : Document) (scrollY : Q) (s : NavState)
  : NavState :=
  let s1 := {| isScrolled := negb (Qle_bool scrollY 50);
               activeSection := activeSection s |} in
  let currentSection := find (section_matches document) sections in
  if truthy currentSection then
    match currentSection with
    | Some c => {| isScrolled := isScrolled s1; activeSection := c |}
    | None => s1
    end
  else s1.

(** [scrollToSection], lines 160-165. *)
Definition scrollToSection (document : Document) (sectionId : string)
  : list Effect :=
  match getElementById document sectionId with
  | Some element => [ScrollIntoView element (opts_of_behavior Smooth)]
  | None => []
  end.

Definition navItems : list (string * string) :=
  [("work", "Work"); ("services", "Services"); ("about", "About")].

(** [activeSection === item.id], lines 208 and 216. *)
Definition is_active (s : NavState) (id : string) : bool :=
  String.eqb (activeSection s) id.

(** What reaches the component: a scroll event on [window], or a click
    on one of its buttons, which calls [scrollToSection]. *)
Inductive NavEvent :=
| ScrollEvent (document : Document) (scrollY : Q)
| ClickEvent (document : Document) (sectionId : string).

Definition nav_step (s : NavState) (ev : NavEvent) : NavState * list Effect :=
  match ev with
  | ScrollEvent d y => (handleScroll d y s, [])
  | ClickEvent d id => (s, scrollToSection d id)
  end.

Fixpoint run_nav (s : NavState) (evs : list NavEvent) : NavState :=
  match evs with
  | [] => s
  | ev :: evs' => run_nav (fst (nav_step s ev)) evs'
  end.

End ElegantNavigation.

(** ** [Index] (src/Index.tsx, lines 11-137) *)
Module Index.

(** The component's [isLoaded] and whether it is mounted, with the
    global state its effect touches: [document.body.style.overflow]
    and the ["dark"] class of [document.documentElement]. *)
Record Page := mkPage {
  isLoaded : bool;
  mounted : bool;
  bodyOverflow : string;
  darkClass : bool }.

(** Mounting: [useState(false)] (line 12), then the effect of
    lines 72-83 runs. *)
Definition mount (p : Page) : Page :=
  {| isLoaded := false; mounted := true;
     bodyOverflow := "hidden"; darkClass := true |}.

(** [handlePreloaderComplete], lines 85-88. A state update on an
    unmounted component is dropped; the style write is not. *)
Definition handlePreloaderComplete (p : Page) : Page :=
  {| isLoaded := if mounted p then true else isLoaded p;
     mounted := mounted p;
     bodyOverflow := "unset"; darkClass := darkClass p |}.

(** Unmounting runs the effect's cleanup, lines 79-82. *)
Definition unmount (p : Page) : Page :=
  {| isLoaded := isLoaded p; mounted := false;
     bodyOverflow := "unset"; darkClass := darkClass p |}.

Inductive View := PreloaderView | MainView.

(** Lines 93 and 96: the main content is rendered iff [isLoaded]. *)
Definition render (p : Page) : View :=
  if isLoaded p then MainView else PreloaderView.

Inductive PageEvent := PreloadComplete | Teardown.

Definition page_step (p : Page) (ev : PageEvent) : Page :=
  match ev with
  | PreloadComplete => handlePreloaderComplete p
  | Teardown => unmount p
  end.

Fixpoint run_page (p : Page) (evs : list PageEvent) : Page :=
  match evs with
  | [] => p
  | ev :: evs' => run_page (page_step p ev) evs'
  end.

End Index.

(** ** What [ElegantNavigation] renders and where its buttons lead
    (src/Footer.tsx, lines 173-241) *)
Module NavView.
Import ElegantNavigation.

Definition opaque_background : string :=
  "bg-black/95 backdrop-blur-sm border-b border-gray-800/50".
Definition transparent_background : string := "bg-transparent".

(** The conditional part of the bar's [className], lines 175-179. *)
Definition nav_background (s : NavState) : string :=
  if isScrolled s then opaque_background else transparent_background.

Record ItemView := mkItemView {
  item_id : string;
  item_label : string;
  item_class : string;
  indicator : bool }.

(** One [motion.button] of [navItems.map], lines 203-226: its text class
    and whether the [activeIndicator] underline is drawn. *)
Definition item_view (s : NavState) (item : string * string) : ItemView :=
  let active := String.eqb (activeSection s) (fst item) in
  {| item_id := fst item; item_label := snd item;
     item_class := if active then "text-beige" else "text-gray-400 hover:text-gray-200";
     indicator := active |}.

Definition render_items (s : NavState) : list ItemView :=
  map (item_view s) navItems.

(** The [scrollToSection] arguments of the bar's buttons: the logo
    (line 189), the nav items (line 206) and the call to action
    (line 232). *)
Definition nav_click_targets : list string :=
  ("hero" :: map fst navItems ++ ["contact"])%list.

End NavView.

(** ** The footer's quick links (src/Footer.tsx, lines 48-71) *)
Module FooterView.

Definition quick_link_targets : list string := ["work"; "services"; "contact"].

End FooterView.

(** ** The scroll listener of [ElegantNavigation] (lines 136-158):
    [useEffect(..., [])] adds [handleScroll] to [window] on mount and its
    cleanup removes it on unmount. *)
Module NavHost.
Import ElegantNavigation.





End NavHost.

(** ** Which traces of [Index] end loaded: the first event is a [PreloadComplete],
    so it arrives before the component is torn down. *)
Module IndexTrace.
Import Index.


End IndexTrace.

(** ** Properties of the scroll tracker *)
Module NavProofs.
Import ElegantNavigation.

Example handleScroll_example :
  let d : Document := fun id =>
    if String.eqb id "services" then Some (mkElement "services" (mkRect (-20) 300))
    else if String.eqb id "work" then Some (mkElement "work" (mkRect 50 900))
    else None in
  handleScroll d 600 init = {| isScrolled := true; activeSection := "services" |}.
Proof. reflexivity. Qed.

Lemma straddles_iff (d : Document) (sec : string) :
  section_matches d sec = true <->
  exists el, d sec = Some el /\ (top (rect el) <= 100)%Q /\ (100 <= bottom (rect el))%Q.
Proof.
  unfold section_matches, getElementById, getBoundingClientRect.
  destruct (d sec) as [el|]; split.
  - intros H. apply andb_true_iff in H as [H1 H2].
    apply Qle_bool_iff in H1, H2. eauto.
  - intros (el' & E & H1 & H2). injection E as <-.
    apply andb_true_iff; split; apply Qle_bool_iff; assumption.
  - discriminate.
  - intros (el' & E & _). discriminate.
Qed.

Lemma not_straddles (d : Document) (sec : string) :
  (forall el, d sec = Some el ->
     ~ ((top (rect el) <= 100)%Q /\ (100 <= bottom (rect el))%Q)) ->
  section_matches d sec = false.
Proof.
  intros H. destruct (section_matches d sec) eqn:E; [|reflexivity].
  apply straddles_iff in E as (el & E & H1 & H2).
  exfalso. exact (H el E (conj H1 H2)).
Qed.

Lemma find_app_first {A} (f : A -> bool) (pre post : list A) (x : A) :
  (forall y, In y pre -> f y = false) -> f x = true ->
  find f (pre ++ x :: post)%list = Some x.
Proof.
  induction pre as [|y pre IH]; intros Hpre Hx; simpl.
  - rewrite Hx. reflexivity.
  - rewrite (Hpre y (or_introl eq_refl)).
    apply IH; [intros z Hz; apply Hpre; right; exact Hz | exact Hx].
Qed.

Lemma find_none {A} (f : A -> bool) (l : list A) :
  (forall y, In y l -> f y = false) -> find f l = None.
Proof.
  induction l as [|y l IH]; intros H; simpl; [reflexivity|].
  rewrite (H y (or_introl eq_refl)). apply IH. intros z Hz. apply H. right. exact Hz.
Qed.

Lemma find_ext_in {A} (f g : A -> bool) (l : list A) :
  (forall y, In y l -> f y = g y) -> find f l = find g l.
Proof.
  induction l as [|y l IH]; intros H; simpl; [reflexivity|].
  rewrite (H y (or_introl eq_refl)).
  destruct (g y); [reflexivity|].
  apply IH. intros z Hz. apply H. right. exact Hz.
Qed.

Lemma find_in {A} (f : A -> bool) (l : list A) (x : A) :
  find f l = Some x -> In x l.
Proof.
  induction l as [|y l IH]; simpl; [discriminate|].
  destruct (f y).
  - intros E. injection E as <-. left. reflexivity.
  - intros E. right. apply IH. exact E.
Qed.

Lemma sections_truthy (c : string) : In c sections -> truthy (Some c) = true.
Proof.
  simpl. intros [<-|[<-|[<-|[<-|[<-|[]]]]]]; reflexivity.
Qed.

Lemma handleScroll_found (d : Document) (y : Q) (s : NavState) (c : string) :
  find (section_matches d) sections = Some c ->
  activeSection (handleScroll d y s) = c.
Proof.
  intros E. unfold handleScroll. rewrite E.
  rewrite (sections_truthy c (find_in _ _ _ E)). reflexivity.
Qed.

Lemma handleScroll_not_found (d : Document) (y : Q) (s : NavState) :
  find (section_matches d) sections = None ->
  activeSection (handleScroll d y s) = activeSection s.
Proof. intros E. unfold handleScroll. rewrite E. reflexivity. Qed.

Lemma handleScroll_active_cases (d : Document) (y : Q) (s : NavState) :
  activeSection (handleScroll d y s) = activeSection s \/
  In (activeSection (handleScroll d y s)) sections.
Proof.
  destruct (find (section_matches d) sections) as [c|] eqn:E.
  - right. rewrite (handleScroll_found d y s c E). exact (find_in _ _ _ E).
  - left. apply handleScroll_not_found. exact E.
Qed.

End NavProofs.

(** ** Claims on the scroll tracker *)
Module NavClaims.
Import ElegantNavigation NavProofs.

Lemma isScrolled_handleScroll (d : Document) (y : Q) (s : NavState) :
  isScrolled (handleScroll d y s) = negb (Qle_bool y 50).
Proof.
  unfold handleScroll.
  destruct (find (section_matches d) sections);
    destruct truthy; reflexivity.
Qed.

(** A page where "hero" is absent, "services" lies below the reference
    line, and both "work" and "about" straddle it. *)
Definition overlap_document : Document := fun id =>
  if String.eqb id "services" then Some (mkElement "services" (mkRect 300 900))
  else if String.eqb id "work" then Some (mkElement "work" (mkRect (-40) 400))
  else if String.eqb id "about" then Some (mkElement "about" (mkRect 80 1200))
  else None.

(** C1: on a scroll event, [activeSection] becomes the first section of
    [hero, services, work, about, contact] whose rectangle has
    [top <= 100] and [bottom >= 100]; earlier sections that do not
    straddle the line are passed over and later ones are ignored. *)
Theorem handleScroll_first_straddling (d : Document) (y : Q) (s : NavState)
  (pre post : list string) (sec : string) (el : Element) :
  sections = (pre ++ sec :: post)%list ->
  d sec = Some el ->
  (top (rect el) <= 100)%Q -> (100 <= bottom (rect el))%Q ->
  (forall sec' el', In sec' pre -> d sec' = Some el' ->
     ~ ((top (rect el') <= 100)%Q /\ (100 <= bottom (rect el'))%Q)) ->
  activeSection (handleScroll d y s) = sec.
Proof.
  intros Hsec Hel H1 H2 Hpre.
  apply handleScroll_found. rewrite Hsec.
  apply find_app_first.
  - intros sec' Hin. apply not_straddles.
    intros el' E. exact (Hpre sec' el' Hin E).
  - apply straddles_iff. exists el. auto.
Qed.

Lemma handleScroll_first_straddling_witness :
  activeSection (handleScroll overlap_document 500 init) = "work".
Proof.
  apply (handleScroll_first_straddling overlap_document 500 init
           ["hero"; "services"] ["about"; "contact"] "work"
           (mkElement "work" (mkRect (-40) 400))).
  - reflexivity.
  - reflexivity.
  - vm_compute. discriminate.
  - vm_compute. discriminate.
  - intros sec' el' [<-|[<-|[]]] E; vm_compute in E.
    + discriminate E.
    + injection E as <-. intros [H _]. vm_compute in H. exact (H eq_refl).
Defined.

(** C2: when no declared section straddles the reference line, a
    scroll event leaves [activeSection] as it was. *)
Theorem handleScroll_keeps_active (d : Document) (y : Q) (s : NavState) :
  (forall sec el, In sec sections -> d sec = Some el ->
     ~ ((top (rect el) <= 100)%Q /\ (100 <= bottom (rect el))%Q)) ->
  activeSection (handleScroll d y s) = activeSection s.
Proof.
  intros H. apply handleScroll_not_found. apply find_none.
  intros sec Hin. apply not_straddles. intros el E. exact (H sec el Hin E).
Qed.

Lemma handleScroll_keeps_active_witness :
  activeSection (handleScroll (fun _ => None) 20
                   {| isScrolled := true; activeSection := "about" |}) = "about".
Proof.
  apply (handleScroll_keeps_active (fun _ => None) 20
           {| isScrolled := true; activeSection := "about" |}).
  intros sec el _ E. discriminate E.
Defined.

(** C3: a scroll event sets [isScrolled] to true exactly when
    [scrollY > 50], and to false exactly when [scrollY <= 50]. *)
Theorem handleScroll_isScrolled (d : Document) (y : Q) (s : NavState) :
  (isScrolled (handleScroll d y s) = true <-> (50 < y)%Q) /\
  (isScrolled (handleScroll d y s) = false <-> (y <= 50)%Q).
Proof.
  rewrite isScrolled_handleScroll. split; split.
  - intros H. apply negb_true_iff in H.
    apply Qnot_le_lt. intros Hle. apply Qle_bool_iff in Hle. congruence.
  - intros H. apply negb_true_iff.
    destruct (Qle_bool y 50) eqn:E; [|reflexivity].
    apply Qle_bool_iff in E. exfalso. exact (Qlt_not_le _ _ H E).
  - intros H. apply negb_false_iff in H. apply Qle_bool_iff. exact H.
  - intros H. apply negb_false_iff. apply Qle_bool_iff. exact H.
Qed.

Definition nav_invariant (s : NavState) : Prop :=
  activeSection s = "" \/ In (activeSection s) sections.

Lemma nav_step_invariant (s : NavState) (ev : NavEvent) :
  nav_invariant s -> nav_invariant (fst (nav_step s ev)).
Proof.
  intros H. destruct ev as [d y|d id]; simpl; [|exact H].
  destruct (handleScroll_active_cases d y s) as [E|Hin].
  - unfold nav_invariant. rewrite E. exact H.
  - right. exact Hin.
Qed.

Lemma run_nav_invariant (evs : list NavEvent) (s : NavState) :
  nav_invariant s -> nav_invariant (run_nav s evs).
Proof.
  revert s. induction evs as [|ev evs IH]; intros s H; simpl; [exact H|].
  apply IH. apply nav_step_invariant. exact H.
Qed.

(** C5: after any sequence of events from the initial state,
    [activeSection] is [""] or one of the declared sections, and at most
    one identifier is rendered as active. *)
Theorem run_nav_active_invariant (evs : list NavEvent) :
  (activeSection (run_nav init evs) = "" \/
   In (activeSection (run_nav init evs)) sections) /\
  (forall id1 id2, is_active (run_nav init evs) id1 = true ->
     is_active (run_nav init evs) id2 = true -> id1 = id2).
Proof.
  split.
  - apply run_nav_invariant. left. reflexivity.
  - unfold is_active. intros id1 id2 H1 H2.
    apply String.eqb_eq in H1, H2. congruence.
Qed.

End NavClaims.

(** ** Claims on [scrollToSection], absent anchors and initial state *)
Module NavClaims2.
Import ElegantNavigation NavProofs.

(** C6: both [scrollToSection] functions (the footer's and the
    navigation's) make exactly one [scrollIntoView] call, smooth and
    aligning the element's top ([block = start]), on the element found
    for the identifier; when no element is found they make no call, and
    a click never changes the navigation state. *)
Theorem scrollToSection_spec (d : Document) (id : string) :
  (forall el, d id = Some el ->
     exists o, behavior o = Smooth /\ block o = Start /\
       Footer.scrollToSection d id = [ScrollIntoView el o] /\
       ElegantNavigation.scrollToSection d id = [ScrollIntoView el o]) /\
  (d id = None ->
     Footer.scrollToSection d id = [] /\
     ElegantNavigation.scrollToSection d id = []) /\
  (forall s, fst (nav_step s (ClickEvent d id)) = s).
Proof.
  unfold Footer.scrollToSection, ElegantNavigation.scrollToSection,
    getElementById.
  split; [|split].
  - intros el E. rewrite E. exists (opts_of_behavior Smooth). auto.
  - intros E. rewrite E. auto.
  - intros s. reflexivity.
Qed.

Definition work_document : Document := fun id =>
  if String.eqb id "work" then Some (mkElement "work" (mkRect 700 1500))
  else None.

Lemma scrollToSection_spec_witness :
  (exists o, behavior o = Smooth /\ block o = Start /\
     Footer.scrollToSection work_document "work" =
       [ScrollIntoView (mkElement "work" (mkRect 700 1500)) o] /\
     ElegantNavigation.scrollToSection work_document "work" =
       [ScrollIntoView (mkElement "work" (mkRect 700 1500)) o]) /\
  (Footer.scrollToSection work_document "pricing" = [] /\
   ElegantNavigation.scrollToSection work_document "pricing" = []).
Proof.
  split.
  - apply (proj1 (scrollToSection_spec work_document "work")). reflexivity.
  - apply (proj1 (proj2 (scrollToSection_spec work_document "pricing"))).
    reflexivity.
Defined.

(** C7: a declared section whose element is absent is treated as not
    straddling the line: the scroll event gives the same state as on the
    document where that section has a rectangle that does not straddle
    it ([handleScroll] is a total function; it raises nothing). *)
Theorem handleScroll_skips_absent (d : Document) (y : Q) (s : NavState)
  (sec : string) (el : Element) :
  d sec = None ->
  ~ ((top (rect el) <= 100)%Q /\ (100 <= bottom (rect el))%Q) ->
  section_matches d sec = false /\
  handleScroll d y s =
    handleScroll (fun id => if String.eqb id sec then Some el else d id) y s.
Proof.
  intros Hnone Hnot.
  assert (Habs : section_matches d sec = false).
  { unfold section_matches, getElementById. rewrite Hnone. reflexivity. }
  split; [exact Habs|].
  unfold handleScroll.
  rewrite (find_ext_in (section_matches d)
             (section_matches (fun id => if String.eqb id sec then Some el else d id))).
  - reflexivity.
  - intros x _. destruct (String.eqb x sec) eqn:E.
    + apply String.eqb_eq in E. subst x. rewrite Habs. symmetry.
      apply not_straddles. rewrite String.eqb_refl.
      intros el' E'. injection E' as <-. exact Hnot.
    + unfold section_matches, getElementById. rewrite E. reflexivity.
Qed.

Lemma handleScroll_skips_absent_witness :
  handleScroll work_document 800 init =
    handleScroll (fun id => if String.eqb id "hero"
                            then Some (mkElement "hero" (mkRect (-900) (-100)))
                            else work_document id) 800 init.
Proof.
  destruct (handleScroll_skips_absent work_document 800 init "hero"
              (mkElement "hero" (mkRect (-900) (-100))) eq_refl) as [_ E].
  - intros [_ H]. vm_compute in H. exact (H eq_refl).
  - exact E.
Defined.

(** C9: before any scroll event [isScrolled] is false and
    [activeSection] is [""], so no navigation item is rendered as active;
    a click leaves both unchanged, so only scroll events change them. *)
Theorem init_nav_state :
  isScrolled init = false /\ activeSection init = "" /\
  (forall item, In item navItems -> is_active init (fst item) = false) /\
  (forall s d id, fst (nav_step s (ClickEvent d id)) = s).
Proof.
  split; [reflexivity|]. split; [reflexivity|]. split.
  - simpl. intros item [<-|[<-|[<-|[]]]]; reflexivity.
  - intros s d id. reflexivity.
Qed.

End NavClaims2.

(** ** Claims on the preloader gate *)
Module PageClaims.
Import Index.

Lemma handlePreloaderComplete_idem (p : Page) :
  handlePreloaderComplete (handlePreloaderComplete p) = handlePreloaderComplete p.
Proof. destruct p as [[] [] o dk]; reflexivity. Qed.

Lemma page_step_keeps_loaded (p : Page) (ev : PageEvent) :
  isLoaded p = true -> isLoaded (page_step p ev) = true.
Proof.
  destruct p as [l m o dk]; destruct ev; simpl; intros ->;
    [destruct m|]; reflexivity.
Qed.

Lemma run_page_keeps_loaded (evs : list PageEvent) (p : Page) :
  isLoaded p = true -> isLoaded (run_page p evs) = true.
Proof.
  revert p. induction evs as [|ev evs IH]; intros p H; simpl; [exact H|].
  apply IH. apply page_step_keeps_loaded. exact H.
Qed.

(** C4: after mounting, the page is loading ([isLoaded] false), the
    body's overflow is ["hidden"] and only the preloader is rendered;
    the completion signal sets [isLoaded], writes ["unset"] and renders
    the main content; a second signal changes nothing, and no later
    event brings [isLoaded] back to false. *)
Theorem page_lifecycle (p : Page) (evs : list PageEvent) :
  isLoaded (mount p) = false /\
  bodyOverflow (mount p) = "hidden" /\
  render (mount p) = PreloaderView /\
  isLoaded (handlePreloaderComplete (mount p)) = true /\
  bodyOverflow (handlePreloaderComplete (mount p)) = "unset" /\
  render (handlePreloaderComplete (mount p)) = MainView /\
  handlePreloaderComplete (handlePreloaderComplete (mount p)) =
    handlePreloaderComplete (mount p) /\
  isLoaded (run_page (handlePreloaderComplete (mount p)) evs) = true.
Proof.
  do 6 (split; [reflexivity|]). split.
  - apply handlePreloaderComplete_idem.
  - apply run_page_keeps_loaded. reflexivity.
Qed.

(** C8: tearing the page down while it is still loading runs the
    effect's cleanup, which releases the scroll lock: the body's
    overflow is ["unset"], no longer ["hidden"]. *)
Theorem teardown_while_loading (p : Page) :
  isLoaded (mount p) = false /\
  bodyOverflow (unmount (mount p)) = "unset" /\
  bodyOverflow (unmount (mount p)) <> "hidden".
Proof. repeat split. discriminate. Qed.

(** C10: both releases of the lock write the fixed value ["unset"];
    whatever overflow the body had before mounting is not restored. *)
Theorem release_writes_unset (p : Page) :
  bodyOverflow (handlePreloaderComplete (mount p)) = "unset" /\
  bodyOverflow (unmount (mount p)) = "unset" /\
  (bodyOverflow p <> "unset" ->
     bodyOverflow (handlePreloaderComplete (mount p)) <> bodyOverflow p /\
     bodyOverflow (unmount (mount p)) <> bodyOverflow p).
Proof.
  split; [reflexivity|]. split; [reflexivity|].
  intros H. simpl. split; intros E; apply H; symmetry; exact E.
Qed.

Definition scroll_page : Page :=
  {| isLoaded := false; mounted := false;
     bodyOverflow := "scroll"; darkClass := false |}.

Lemma release_writes_unset_witness :
  bodyOverflow (handlePreloaderComplete (mount scroll_page)) <> "scroll" /\
  bodyOverflow (unmount (mount scroll_page)) <> "scroll".
Proof.
  apply (proj2 (proj2 (release_writes_unset scroll_page))).
  discriminate.
Defined.

End PageClaims.

(** ** Further properties of the navigation bar *)
Module NavExtras.
Import ElegantNavigation NavProofs NavClaims NavView NavHost.

(** The bar turns opaque after a scroll event past 50 pixels and is
    transparent at or above that offset. *)
Theorem nav_background_after_scroll (d : Document) (y : Q) (s : NavState) :
  ((50 < y)%Q -> nav_background (handleScroll d y s) = opaque_background) /\
  ((y <= 50)%Q -> nav_background (handleScroll d y s) = transparent_background).
Proof.
  unfold nav_background. rewrite isScrolled_handleScroll. split; intros H.
  - destruct (Qle_bool y 50) eqn:E; [|reflexivity].
    apply Qle_bool_iff in E. exfalso. exact (Qlt_not_le _ _ H E).
  - apply Qle_bool_iff in H. rewrite H. reflexivity.
Qed.

Lemma nav_background_after_scroll_witness :
  nav_background (handleScroll (fun _ => None) 120 init) = opaque_background /\
  nav_background (handleScroll (fun _ => None) 50 init) = transparent_background.
Proof.
  split.
  - apply (proj1 (nav_background_after_scroll (fun _ => None) 120 init)).
    vm_compute. reflexivity.
  - apply (proj2 (nav_background_after_scroll (fun _ => None) 50 init)).
    vm_compute. discriminate.
Defined.

(** Whatever the state, at most one nav item is drawn with the underline,
    and an underlined item is the active section, in the "text-beige"
    class. *)
Theorem render_items_one_indicator (s : NavState) :
  (length (filter indicator (render_items s)) <= 1)%nat /\
  (forall v, In v (render_items s) -> indicator v = true ->
     item_id v = activeSection s /\ item_class v = "text-beige").
Proof.
  unfold render_items, item_view, navItems. simpl.
  destruct (String.eqb (activeSection s) "work") eqn:E1;
  destruct (String.eqb (activeSection s) "services") eqn:E2;
  destruct (String.eqb (activeSection s) "about") eqn:E3;
  repeat match goal with
         | H : String.eqb _ _ = true |- _ => apply String.eqb_eq in H
         end;
  try congruence;
  (split; [simpl; auto|]);
  intros v Hv Hi;
  repeat (destruct Hv as [<-|Hv]; [simpl in *; try discriminate; auto|]);
  destruct Hv.
Qed.

(** A nav item is underlined exactly when the active section is one of
    the nav items' identifiers; while "hero" or "contact" (or nothing) is
    active, no item is. *)
Theorem render_items_indicator_iff (s : NavState) :
  (exists v, In v (render_items s) /\ indicator v = true) <->
  In (activeSection s) (map fst navItems).
Proof.
  split.
  - unfold render_items, item_view, navItems. simpl.
    intros (v & Hv & Hi).
    repeat (destruct Hv as [<-|Hv];
            [simpl in Hi; apply String.eqb_eq in Hi; auto|]).
    destruct Hv.
  - simpl. intros [H|[H|[H|[]]]];
      [exists (item_view s ("work", "Work"))
      |exists (item_view s ("services", "Services"))
      |exists (item_view s ("about", "About"))];
      (split; [unfold render_items, navItems; simpl; tauto
              |unfold item_view; simpl; rewrite <- H; apply String.eqb_refl]).
Qed.

(** Every button of the bar and of the footer scrolls to a section the
    tracker follows, and every tracked section has a button in the bar. *)
Theorem click_targets_are_sections (t : string) :
  (In t nav_click_targets <-> In t sections) /\
  (In t FooterView.quick_link_targets -> In t sections).
Proof.
  unfold nav_click_targets, sections, FooterView.quick_link_targets, navItems.
  simpl. split; [split|]; intros H;
  repeat (destruct H as [<-|H]; [simpl; tauto|]); destruct H.
Qed.

Lemma click_targets_are_sections_witness :
  In "contact" sections.
Proof.
  apply (proj2 (click_targets_are_sections "contact")). simpl. tauto.
Defined.

(** Handling the same scroll event twice gives the state of handling it
    once. *)
Theorem handleScroll_idempotent (d : Document) (y : Q) (s : NavState) :
  handleScroll d y (handleScroll d y s) = handleScroll d y s.
Proof.
  unfold handleScroll.
  destruct (find (section_matches d) sections) as [c|];
    [destruct (truthy (Some c))|]; reflexivity.
Qed.

(** When some declared section straddles the reference line, the state
    after the scroll event does not depend on the state before it. *)
Theorem handleScroll_forgets_state (d : Document) (y : Q) (s t : NavState) :
  (exists sec, In sec sections /\ section_matches d sec = true) ->
  handleScroll d y s = handleScroll d y t.
Proof.
  intros (sec & Hin & Hm).
  destruct (find (section_matches d) sections) as [c|] eqn:E.
  - unfold handleScroll. rewrite E.
    rewrite (sections_truthy c (find_in _ _ _ E)). reflexivity.
  - rewrite (List.find_none _ _ E sec Hin) in Hm. discriminate.
Qed.

Lemma handleScroll_forgets_state_witness :
  handleScroll NavClaims.overlap_document 30 init =
  handleScroll NavClaims.overlap_document 30
    {| isScrolled := true; activeSection := "contact" |}.
Proof.
  apply handleScroll_forgets_state. exists "work". split.
  - simpl. tauto.
  - vm_compute. reflexivity.
Defined.




End NavExtras.

(** ** Further properties of the preloader gate *)
Module PageExtras.
Import Index IndexTrace PageClaims.

Lemma run_page_keeps_dark (evs : list PageEvent) (p : Page) :
  darkClass p = true -> darkClass (run_page p evs) = true.
Proof.
  revert p. induction evs as [|ev evs IH]; intros p H; simpl; [exact H|].
  apply IH. destruct ev; exact H.
Qed.

(** The "dark" class added on mount is never removed: neither the
    completion signal nor the effect's cleanup takes it off. *)
Theorem dark_class_kept (p : Page) (evs : list PageEvent) :
  darkClass (run_page (mount p) evs) = true.
Proof. apply run_page_keeps_dark. reflexivity. Qed.

Lemma run_page_unset (evs : list PageEvent) (p : Page) :
  evs <> [] -> bodyOverflow (run_page p evs) = "unset".
Proof.
  revert p. induction evs as [|ev evs IH]; intros p H; [congruence|].
  destruct evs as [|ev' evs'].
  - destruct ev; reflexivity.
  - simpl. apply IH. discriminate.
Qed.

(** The body stays locked ("hidden") only until the first event of the
    mounted page: after a completion signal or a teardown, whatever comes
    next, it is "unset". *)
Theorem scroll_lock_until_first_event (p : Page) (evs : list PageEvent) :
  (evs = [] -> bodyOverflow (run_page (mount p) evs) = "hidden") /\
  (evs <> [] -> bodyOverflow (run_page (mount p) evs) = "unset").
Proof.
  split.
  - intros ->. reflexivity.
  - apply run_page_unset.
Qed.

Lemma scroll_lock_until_first_event_witness :
  bodyOverflow (run_page (mount scroll_page) []) = "hidden" /\
  bodyOverflow (run_page (mount scroll_page) [Teardown; PreloadComplete]) = "unset".
Proof.
  split.
  - apply (proj1 (scroll_lock_until_first_event scroll_page [])). reflexivity.
  - apply (proj2 (scroll_lock_until_first_event scroll_page [Teardown; PreloadComplete])).
    discriminate.
Defined.



End PageExtras.
